(** * is-thenable: the [isThenable] predicate of [src/index.ts]

    The development embeds the one function of the package, [isThenable],
    over a model of the part of the JavaScript object model the function
    touches: language values, the [typeof] operator, strict equality, and
    the [[Get]] internal method of ordinary objects (data and accessor
    properties, prototype chain) and of Proxy objects (handler trap,
    revocation).  Function bodies are run by the host. *)

From Stdlib Require Import ZArith String List Floats.SpecFloat.
From stdpp Require Import base option gmap strings list.

Local Open Scope string_scope.
Local Open Scope list_scope.

(** ** Language values *)

(** Object identities. *)
Abbreviation loc := positive.

(** A JavaScript value.  Numbers are IEEE 754 doubles ([S754_nan] is NaN,
    [S754_infinity] the two infinities, [S754_zero true] is -0); an object
    or a function is a reference into the heap. *)
Inductive Value : Type :=
| Undefined
| Null
| Boolean (b : bool)
| Number (n : spec_float)
| Str (s : string)
| Symbol (description : positive)
| BigInt (z : Z)
| Object (l : loc).

#[global] Instance spec_float_eq_dec : EqDecision spec_float.
Proof. solve_decision. Defined.

#[global] Instance Value_eq_dec : EqDecision Value.
Proof. solve_decision. Defined.

(** What a [throw] carries.  An error raised by the engine itself is kept
    symbolic: [isThenable] catches with [catch {}] and never looks at it. *)
Inductive Exception : Type :=
| TypeError
| Thrown (v : Value).

(** A completion record: normal, or abrupt by [throw]. *)
Inductive Completion (A : Type) : Type :=
| Normal (a : A)
| Throw (e : Exception).
Arguments Normal {A} a.
Arguments Throw {A} e.

(** ** Objects and the heap *)

(** A property of an object, with its attributes. *)
Inductive Property : Type :=
| DataProperty (value : Value) (writable enumerable configurable : bool)
| AccessorProperty (getter setter : Value) (enumerable configurable : bool).

(** An ordinary object: [[Prototype]], own string-keyed properties, whether
    it has a [[Call]] internal method (functions of every kind), and the
    primitive a wrapper object boxes ([[NumberData]], [[StringData]],
    [[BooleanData]], ...). *)
Record OrdinaryObject : Type := mkOrdinary {
  Prototype : option loc;
  Properties : gmap string Property;
  Callable : bool;
  PrimitiveData : option Value
}.

(** A Proxy exotic object.  [ProxySlots] holds [[ProxyTarget]] and
    [[ProxyHandler]], and is [None] once the proxy is revoked.  A proxy is
    callable when its target was, and stays so after revocation. *)
Record ProxyObject : Type := mkProxy {
  ProxySlots : option (loc * loc);
  ProxyCallable : bool
}.

Inductive Obj : Type :=
| Ordinary (o : OrdinaryObject)
| Proxy (p : ProxyObject).

Abbreviation Heap := (gmap positive Obj).

(** The prototype objects a property read on a primitive starts from. *)
Record Realm : Type := mkRealm {
  BooleanPrototype : loc;
  NumberPrototype : loc;
  StringPrototype : loc;
  SymbolPrototype : loc;
  BigIntPrototype : loc
}.

(** The [[Call]] internal method as the host executes it: function object,
    [this], arguments and heap in; completion and heap out, or [None] when
    the call does not terminate. *)
Abbreviation HostCall :=
  (positive -> Value -> list Value -> gmap positive Obj ->
   option (Completion Value * gmap positive Obj)).

(** ** Operators *)

(** IsCallable(v).  A reference with no object behind it cannot be made by
    a program; it is given the behaviour of a non-callable object. *)
Definition IsCallable (h : Heap) (v : Value) : bool :=
  match v with
  | Object l =>
      match h !! l with
      | Some (Ordinary o) => Callable o
      | Some (Proxy p) => ProxyCallable p
      | None => false
      end
  | _ => false
  end.

(** The [typeof] operator. *)
Definition typeof (h : Heap) (v : Value) : string :=
  match v with
  | Undefined => "undefined"
  | Null => "object"
  | Boolean _ => "boolean"
  | Number _ => "number"
  | Str _ => "string"
  | Symbol _ => "symbol"
  | BigInt _ => "bigint"
  | Object _ => if IsCallable h v then "function" else "object"
  end.

(** Number::equal: NaN equals nothing, the two zeros are equal. *)
Definition Number_equal (x y : spec_float) : bool := SFeqb x y.

(** IsStrictlyEqual, the [===] operator. *)
Definition strict_equals (x y : Value) : bool :=
  match x, y with
  | Number a, Number b => Number_equal a b
  | _, _ => bool_decide (x = y)
  end.

(** SameValue: as [===] except that NaN is itself and the zeros differ. *)
Definition SameValue (x y : Value) : bool := bool_decide (x = y).

(** [===] and [!==] between the strings [typeof] yields. *)
Definition str_equals (a b : string) : bool := String.eqb a b.
Definition str_not_equals (a b : string) : bool := negb (String.eqb a b).

(** ** The interpreter state and its monad *)

(** The heap, and the log of the property reads made by the code of the
    package itself (reads made by host code are the host's). *)
Record State : Type := mkState {
  heap : Heap;
  reads : list (Value * string)
}.

(** A computation: [None] when it does not terminate. *)
Definition JS (A : Type) : Type := State -> option (Completion A * State).

Definition ret {A : Type} (a : A) : JS A :=
  fun st => Some (Normal a, st).

Definition bind {A B : Type} (m : JS A) (k : A -> JS B) : JS B :=
  fun st =>
    match m st with
    | None => None
    | Some (Throw e, st') => Some (Throw e, st')
    | Some (Normal a, st') => k a st'
    end.

(** [try { body } catch { handler }] *)
Definition try_catch {A : Type} (body : JS A) (handler : JS A) : JS A :=
  fun st =>
    match body st with
    | None => None
    | Some (Throw _, st') => handler st'
    | Some (Normal a, st') => Some (Normal a, st')
    end.

Notation "'let*' x ':=' m 'in' k" := (bind m (fun x => k))
  (at level 10, x name, m at level 100, k at level 200,
   format "'[v' 'let*'  x  ':='  m  'in' '/' k ']'").

(** [typeof v] as an expression. *)
Definition typeof_op (v : Value) : JS string :=
  fun st => Some (Normal (typeof (heap st) v), st).

(** ** Property lookup *)

Section Semantics.

Variable host_call : HostCall.
Variable realm : Realm.

(** Call(F, V, args) *)
Definition Call (h : Heap) (F V : Value) (args : list Value)
  : option (Completion Value * Heap) :=
  match F with
  | Object f =>
      if IsCallable h F then host_call f V args h
      else Some (Throw TypeError, h)
  | _ => Some (Throw TypeError, h)
  end.

(** The invariant a proxy's [get] trap result must meet: it is checked
    against the own property of an ordinary target (a target that is a
    proxy would answer through traps of its own). *)
Definition proxy_get_invariant (h : Heap) (target : loc) (P : string)
    (trapResult : Value) : bool :=
  match h !! target with
  | Some (Ordinary o) =>
      match Properties o !! P with
      | Some (DataProperty v false _ false) => SameValue trapResult v
      | Some (AccessorProperty Undefined _ _ false) =>
          SameValue trapResult Undefined
      | _ => true
      end
  | _ => true
  end.

(** O.[[Get]](P, Receiver).  [fuel] bounds the depth of the lookup
    (prototype and proxy hops); [None] is a lookup that has not finished
    within it.  A reference with no object behind it behaves as an
    invalidated handle. *)
Fixpoint Get (fuel : nat) (h : Heap) (O : loc) (P : string)
    (Receiver : Value) {struct fuel} : option (Completion Value * Heap) :=
  match fuel with
  | 0 => None
  | S fuel =>
      match h !! O with
      | None => Some (Throw TypeError, h)
      | Some (Ordinary o) =>
          match Properties o !! P with
          | None =>
              match Prototype o with
              | None => Some (Normal Undefined, h)
              | Some parent => Get fuel h parent P Receiver
              end
          | Some (DataProperty v _ _ _) => Some (Normal v, h)
          | Some (AccessorProperty getter _ _ _) =>
              match getter with
              | Undefined => Some (Normal Undefined, h)
              | _ => Call h getter Receiver []
              end
          end
      | Some (Proxy p) =>
          match ProxySlots p with
          | None => Some (Throw TypeError, h)
          | Some (target, handler) =>
              match Get fuel h handler "get" (Object handler) with
              | None => None
              | Some (Throw e, h1) => Some (Throw e, h1)
              | Some (Normal trap, h1) =>
                  match trap with
                  | Undefined | Null => Get fuel h1 target P Receiver
                  | _ =>
                      match Call h1 trap (Object handler)
                              [Object target; Str P; Receiver] with
                      | None => None
                      | Some (Throw e, h2) => Some (Throw e, h2)
                      | Some (Normal trapResult, h2) =>
                          if proxy_get_invariant h2 target P trapResult
                          then Some (Normal trapResult, h2)
                          else Some (Throw TypeError, h2)
                      end
                  end
              end
          end
      end
  end.

(** GetV(V, P): the read [V[P]].  A primitive is read through the
    prototype of its wrapper, with the primitive as receiver (the own
    [length] and index properties of strings are not among the keys read
    here); [null] and [undefined] have no properties. *)
Definition GetV (fuel : nat) (h : Heap) (V : Value) (P : string)
  : option (Completion Value * Heap) :=
  match V with
  | Undefined | Null => Some (Throw TypeError, h)
  | Boolean _ => Get fuel h (BooleanPrototype realm) P V
  | Number _ => Get fuel h (NumberPrototype realm) P V
  | Str _ => Get fuel h (StringPrototype realm) P V
  | Symbol _ => Get fuel h (SymbolPrototype realm) P V
  | BigInt _ => Get fuel h (BigIntPrototype realm) P V
  | Object l => Get fuel h l P V
  end.

(** The member expression [V[P]] as [isThenable] evaluates it: one GetV,
    logged. *)
Definition property_access (fuel : nat) (V : Value) (P : string) : JS Value :=
  fun st =>
    match GetV fuel (heap st) V P with
    | None => None
    | Some (c, h') => Some (c, mkState h' (reads st ++ [(V, P)]))
    end.

(** ** The function

<<
export function isThenable<T = unknown>(value: unknown): value is Thenable<T> {
    if (value === null || value === undefined) {
        return false;
    }
    if (typeof value !== 'object' && typeof value !== 'function') {
        return false;
    }
    try {
        return typeof (value as Record<string, unknown>)['then'] === 'function';
    } catch {
        return false;
    }
}
>> *)
Definition isThenable (fuel : nat) (value : Value) : JS bool :=
  fun st =>
    if strict_equals value Null || strict_equals value Undefined then
      ret false st
    else if str_not_equals (typeof (heap st) value) "object"
            && str_not_equals (typeof (heap st) value) "function" then
      ret false st
    else
      try_catch
        (let* then_ := property_access fuel value "then" in
         let* t := typeof_op then_ in
         ret (str_equals t "function"))
        (ret false)
        st.

End Semantics.

(** ** What the function computes *)

(** The boolean a single observation of the [then] member is turned into,
    in the heap the read left. *)
Definition classify (h : Heap) (c : Completion Value) : bool :=
  match c with
  | Normal member => IsCallable h member
  | Throw _ => false
  end.

(** ** Members found along the prototype chain *)

(** [Carries h P l d n]: the lookup of [P] from the ordinary object [l]
    ends, [n] prototype hops further, at an object with own property [d]. *)
Inductive Carries (h : Heap) (P : string) : loc -> Property -> nat -> Prop :=
| Carries_own (l : loc) (o : OrdinaryObject) (d : Property) :
    h !! l = Some (Ordinary o) ->
    Properties o !! P = Some d ->
    Carries h P l d 0
| Carries_inherited (l parent : loc) (o : OrdinaryObject) (d : Property) (n : nat) :
    h !! l = Some (Ordinary o) ->
    Properties o !! P = None ->
    Prototype o = Some parent ->
    Carries h P parent d n ->
    Carries h P l d (S n).

(** [Lacks h P l n]: the chain from [l] ends after [n] hops without [P]. *)
Inductive Lacks (h : Heap) (P : string) : loc -> nat -> Prop :=
| Lacks_end (l : loc) (o : OrdinaryObject) :
    h !! l = Some (Ordinary o) ->
    Properties o !! P = None ->
    Prototype o = None ->
    Lacks h P l 0
| Lacks_step (l parent : loc) (o : OrdinaryObject) (n : nat) :
    h !! l = Some (Ordinary o) ->
    Properties o !! P = None ->
    Prototype o = Some parent ->
    Lacks h P parent n ->
    Lacks h P l (S n).

(** ** A concrete world

    The objects of the package's test suite, laid out in one heap. *)

Module World.

(** [() => {}] *)
Definition fn : loc := 10.
(** [{ then: () => {} }] *)
Definition with_method : loc := 1.
(** [{ then: 'not a function' }] *)
Definition with_string : loc := 2.
(** [Object.create({ then: () => {} })] *)
Definition inheriting : loc := 3.
(** [Object.defineProperty({}, 'then', { get() { throw new Error('oops') } })] *)
Definition throwing : loc := 4.
Definition throwing_getter : loc := 11.
(** The proxy of [Proxy.revocable({}, {})] after [revoke()]. *)
Definition revoked : loc := 5.
(** [{ get then() { const r = returnFunction ? () => {} : null;
                    returnFunction = !returnFunction; return r } }];
    the variable [returnFunction] lives in the property of that name of
    the environment object [scope]. *)
Definition alternating : loc := 6.
Definition alternating_getter : loc := 12.
Definition scope : loc := 13.
(** [new Proxy({}, { get(target, prop) { if (prop === 'then') return () => {};
                                          return undefined } })] *)
Definition proxied : loc := 7.
Definition handler : loc := 8.
Definition get_trap : loc := 14.
Definition target : loc := 15.
(** [new Number(42)] with an own [then] method, and [Number.prototype]
    extended with a [then] method. *)
Definition boxed : loc := 9.
Definition number_prototype : loc := 20.
Definition other_prototype : loc := 21.
(** [{ get then() { this.touched = true; return undefined } }] *)
Definition touching : loc := 16.
Definition touching_getter : loc := 17.

(** The double 42. *)
Definition forty_two : spec_float := S754_finite false 5910974510923776 (-47).

Definition data (v : Value) : Property := DataProperty v true true true.
Definition plain (proto : option loc) (props : gmap string Property) : Obj :=
  Ordinary (mkOrdinary proto props false None).
Definition function_object : Obj :=
  Ordinary (mkOrdinary None ∅ true None).

Definition heap0 : gmap positive Obj :=
  list_to_map
    [ (fn, function_object);
      (with_method, plain None {[ "then" := data (Object fn) ]});
      (with_string, plain None {[ "then" := data (Str "not a function") ]});
      (inheriting, plain (Some with_method) ∅);
      (throwing, plain None
         {[ "then" := AccessorProperty (Object throwing_getter) Undefined false false ]});
      (throwing_getter, function_object);
      (revoked, Proxy (mkProxy None false));
      (alternating, plain None
         {[ "then" := AccessorProperty (Object alternating_getter) Undefined true true ]});
      (alternating_getter, function_object);
      (scope, plain None {[ "returnFunction" := data (Boolean true) ]});
      (proxied, Proxy (mkProxy (Some (target, handler)) false));
      (handler, plain None {[ "get" := data (Object get_trap) ]});
      (get_trap, function_object);
      (target, plain None ∅);
      (boxed, Ordinary (mkOrdinary (Some number_prototype)
                          {[ "then" := data (Object fn) ]} false
                          (Some (Number forty_two))));
      (number_prototype, plain None {[ "then" := data (Object fn) ]});
      (other_prototype, plain None ∅);
      (touching, plain None
         {[ "then" := AccessorProperty (Object touching_getter) Undefined true true ]});
      (touching_getter, function_object) ].

Definition realm0 : Realm :=
  mkRealm other_prototype number_prototype other_prototype
          other_prototype other_prototype.

(** The bodies of the functions that get called: the getters and the trap. *)
Definition host0 : positive -> Value -> list Value -> gmap positive Obj ->
                   option (Completion Value * gmap positive Obj) :=
  fun f this args h =>
    if decide (f = throwing_getter) then
      Some (Throw (Thrown (Str "oops")), h)
    else if decide (f = alternating_getter) then
      match h !! scope with
      | Some (Ordinary env) =>
          match Properties env !! "returnFunction" with
          | Some (DataProperty (Boolean b) w e c) =>
              Some (Normal (if b then Object fn else Null),
                    <[ scope :=
                         Ordinary (mkOrdinary (Prototype env)
                           (<[ "returnFunction" :=
                                 DataProperty (Boolean (negb b)) w e c ]>
                              (Properties env))
                           (Callable env) (PrimitiveData env)) ]> h)
          | _ => Some (Throw TypeError, h)
          end
      | _ => Some (Throw TypeError, h)
      end
    else if decide (f = touching_getter) then
      match this with
      | Object l =>
          match h !! l with
          | Some (Ordinary o) =>
              Some (Normal Undefined,
                    <[ l := Ordinary (mkOrdinary (Prototype o)
                              (<[ "touched" := data (Boolean true) ]>
                                 (Properties o))
                              (Callable o) (PrimitiveData o)) ]> h)
          | _ => Some (Throw TypeError, h)
          end
      | _ => Some (Throw TypeError, h)
      end
    else if decide (f = get_trap) then
      match args with
      | [_; Str "then"; _] => Some (Normal (Object fn), h)
      | _ => Some (Normal Undefined, h)
      end
    else Some (Normal Undefined, h).

(** A host whose functions do nothing. *)
Definition idle_host : positive -> Value -> list Value -> gmap positive Obj ->
                       option (Completion Value * gmap positive Obj) :=
  fun _ _ _ h => Some (Normal Undefined, h).

Definition st0 : State := mkState heap0 [].

Definition run (fuel : nat) (v : Value) (st : State) : option (Completion bool * State) :=
  isThenable host0 realm0 fuel v st.

(** The state after [n] successive checks of [v]. *)
Fixpoint after (n : nat) (fuel : nat) (v : Value) (st : State) : State :=
  match n with
  | 0 => st
  | S n =>
      match run fuel v st with
      | Some (_, st') => after n fuel v st'
      | None => st
      end
  end.

(** The outcome alone. *)
Definition verdict (fuel : nat) (v : Value) (st : State) : option (Completion bool) :=
  fst <$> run fuel v st.

End World.

(** ** The module's exports

<<
export function isThenable ...
export default isThenable;
>> *)
Module Exports.
Definition isThenable := isThenable.
Definition default := isThenable.
End Exports.

(** ** A caller: the validation helper of the README

<<
function validatePromiseLike(value: unknown): asserts value is Thenable {
    if (!isThenable(value)) {
        throw new TypeError('Expected a thenable');
    }
}
>> *)

(** The [throw] statement. *)
Definition throw {A : Type} (e : Exception) : JS A :=
  fun st => Some (Throw e, st).

Section Callers.

Variable host_call : HostCall.
Variable realm : Realm.
(** The prototype object of TypeError instances. *)
Variable TypeErrorPrototype : loc.

(** The object [new TypeError(message)] makes: its [message] is a
    writable, non-enumerable, configurable data property. *)
Definition TypeError_instance (message : string) : Obj :=
  Ordinary (mkOrdinary (Some TypeErrorPrototype)
              {[ "message" := DataProperty (Str message) true false true ]}
              false None).

(** [new TypeError(message)]: the instance is stored at a location the
    heap does not use yet. *)
Definition new_TypeError (message : string) : JS Value :=
  fun st =>
    let l := fresh (dom (heap st)) in
    Some (Normal (Object l),
          mkState (<[ l := TypeError_instance message ]> (heap st)) (reads st)).

Definition validatePromiseLike (fuel : nat) (value : Value) : JS unit :=
  let* thenable := isThenable host_call realm fuel value in
  if negb thenable then
    let* error := new_TypeError "Expected a thenable" in
    throw (Thrown error)
  else ret tt.

End Callers.

(** ** Two more objects *)

Module Scenes.

(** [{ set then(v) {} }] *)
Definition setter_only : loc := 40.
Definition setter : loc := 42.
(** [new Proxy({ then: () => {} }, {})] *)
Definition transparent : loc := 41.
Definition empty_handler : loc := 43.
(** The prototype of TypeError instances. *)
Definition type_error_prototype : loc := 44.

Definition heap1 : gmap positive Obj :=
  list_to_map
    [ (setter_only, World.plain None
         {[ "then" := AccessorProperty Undefined (Object setter) true true ]});
      (setter, World.function_object);
      (transparent,
         Proxy (mkProxy (Some (World.with_method, empty_handler)) false));
      (empty_handler, World.plain None ∅);
      (type_error_prototype, World.plain None ∅) ]
  ∪ World.heap0.

Definition st1 : State := mkState heap1 [].

End Scenes.

(** * Lemmas *)

Arguments Call host_call h F V args : simpl never.

(** ** Fuel *)

Section Fuel.

Variable host_call : HostCall.
Variable realm : Realm.

(** A lookup that finished keeps its outcome with more fuel. *)
Lemma Get_mono (n : nat) :
  forall (h : Heap) (O : loc) (P : string) (R : Value) r,
    Get host_call n h O P R = Some r ->
    forall m, n <= m -> Get host_call m h O P R = Some r.
Proof.
  induction n as [|n IH]; intros h O P R r Hn m Hle; [discriminate|].
  destruct m as [|m]; [lia|].
  assert (Hnm : n <= m) by lia.
  simpl in Hn |- *.
  destruct (h !! O) as [[o|p]|]; [| |exact Hn].
  - destruct (Properties o !! P) as [[v ? ? ?|g ? ? ?]|]; try exact Hn.
    destruct (Prototype o) as [parent|]; [|exact Hn].
    eapply IH; eassumption.
  - destruct (ProxySlots p) as [[target handler]|]; [|exact Hn].
    destruct (Get host_call n h handler "get" (Object handler))
      as [[[trap|e] h1]|] eqn:Hh; [| |discriminate].
    + rewrite (IH _ _ _ _ _ Hh m Hnm).
      destruct trap; try exact Hn; eapply IH; eassumption.
    + rewrite (IH _ _ _ _ _ Hh m Hnm). exact Hn.
Qed.

Lemma GetV_mono (n m : nat) (h : Heap) (V : Value) (P : string) r :
  GetV host_call realm n h V P = Some r -> n <= m ->
  GetV host_call realm m h V P = Some r.
Proof.
  destruct V; simpl; intros H Hle; try exact H; eapply Get_mono; eassumption.
Qed.

Lemma property_access_mono (n m : nat) (V : Value) (P : string) st r :
  property_access host_call realm n V P st = Some r -> n <= m ->
  property_access host_call realm m V P st = Some r.
Proof.
  unfold property_access. intros H Hle.
  destruct (GetV host_call realm n (heap st) V P) as [[c h']|] eqn:E;
    [|discriminate].
  rewrite (GetV_mono _ _ _ _ _ _ E Hle). exact H.
Qed.

Lemma isThenable_mono (n m : nat) (value : Value) st r :
  isThenable host_call realm n value st = Some r -> n <= m ->
  isThenable host_call realm m value st = Some r.
Proof.
  unfold isThenable. intros H Hle.
  destruct (strict_equals value Null || strict_equals value Undefined);
    [exact H|].
  destruct (str_not_equals (typeof (heap st) value) "object"
            && str_not_equals (typeof (heap st) value) "function");
    [exact H|].
  unfold try_catch, bind in H |- *.
  destruct (property_access host_call realm n value "then" st)
    as [[c st']|] eqn:E; [|discriminate].
  rewrite (property_access_mono _ _ _ _ _ _ E Hle). exact H.
Qed.

End Fuel.

Lemma typeof_function (h : Heap) (v : Value) :
  str_equals (typeof h v) "function" = IsCallable h v.
Proof.
  destruct v; try reflexivity.
  unfold typeof. destruct (IsCallable h (Object l)); reflexivity.
Qed.

(** The values with [typeof] "object" or "function", [null] apart, are the
    references. *)
Lemma typeof_object_or_function (h : Heap) (v : Value) :
  v <> Null ->
  typeof h v = "object" \/ typeof h v = "function" ->
  exists l, v = Object l.
Proof.
  intros Hnull [H|H]; destruct v; try discriminate; try congruence; eauto.
Qed.

Lemma typeof_reference (h : Heap) (l : loc) :
  typeof h (Object l) = "object" \/ typeof h (Object l) = "function".
Proof.
  unfold typeof. destruct (IsCallable h (Object l)); auto.
Qed.

Lemma reference_or_not (v : Value) :
  (exists l, v = Object l) \/ (forall l, v <> Object l).
Proof. destruct v; eauto; right; discriminate. Qed.

Section Characterisation.

Variable host_call : HostCall.
Variable realm : Realm.

(** On a reference the two guards fall through and the outcome is the
    classification of one logged read. *)
Lemma isThenable_reference (fuel : nat) (l : loc) (st : State) :
  isThenable host_call realm fuel (Object l) st =
  match GetV host_call realm fuel (heap st) (Object l) "then" with
  | None => None
  | Some (c, h') =>
      Some (Normal (classify h' c),
            mkState h' (reads st ++ [(Object l, "then")]))
  end.
Proof.
  unfold isThenable.
  replace (strict_equals (Object l) Null || strict_equals (Object l) Undefined)
    with false by reflexivity.
  replace (str_not_equals (typeof (heap st) (Object l)) "object"
           && str_not_equals (typeof (heap st) (Object l)) "function")
    with false
    by (unfold typeof; destruct (IsCallable (heap st) (Object l)); reflexivity).
  unfold try_catch, bind, property_access, typeof_op, ret.
  destruct (GetV host_call realm fuel (heap st) (Object l) "then")
    as [[[member|e] h']|]; simpl; try reflexivity.
  rewrite typeof_function. reflexivity.
Qed.

(** On anything else one of the guards returns, with the state as it
    was. *)
Lemma isThenable_non_reference (fuel : nat) (v : Value) (st : State) :
  (forall l, v <> Object l) ->
  isThenable host_call realm fuel v st = Some (Normal false, st).
Proof.
  intros Hv. destruct v; try reflexivity.
  exfalso. eapply Hv. reflexivity.
Qed.

End Characterisation.

Section Lookup.

Variable host_call : HostCall.
Variable realm : Realm.

(** A data property, own or inherited, is read as its value; attributes
    play no part and the heap is left as it was. *)
Lemma Get_carries_data (h : Heap) (P : string) (l : loc) (v : Value)
    (w e c : bool) (n : nat) :
  Carries h P l (DataProperty v w e c) n ->
  forall fuel R, n < fuel ->
    Get host_call fuel h l P R = Some (Normal v, h).
Proof.
  intros HC.
  remember (DataProperty v w e c) as d eqn:Hd.
  induction HC as [l o d Hl Hp | l parent o d n Hl Hp Hproto HC IH];
    intros fuel R Hlt; (destruct fuel as [|fuel]; [lia|]); simpl;
    rewrite Hl, Hp.
  - subst d. reflexivity.
  - rewrite Hproto. apply IH; [exact Hd | lia].
Qed.

(** An accessor found on the chain is called with the receiver. *)
Lemma Get_carries_accessor (h : Heap) (P : string) (l g : loc)
    (setter : Value) (e c : bool) (n : nat) :
  Carries h P l (AccessorProperty (Object g) setter e c) n ->
  forall fuel R, n < fuel ->
    Get host_call fuel h l P R = Call host_call h (Object g) R [].
Proof.
  intros HC.
  remember (AccessorProperty (Object g) setter e c) as d eqn:Hd.
  induction HC as [l o d Hl Hp | l parent o d n Hl Hp Hproto HC IH];
    intros fuel R Hlt; (destruct fuel as [|fuel]; [lia|]); simpl;
    rewrite Hl, Hp.
  - subst d. reflexivity.
  - rewrite Hproto. apply IH; [exact Hd | lia].
Qed.

(** A member found nowhere on the chain is read as [undefined]. *)
Lemma Get_lacks (h : Heap) (P : string) (l : loc) (n : nat) :
  Lacks h P l n ->
  forall fuel R, n < fuel ->
    Get host_call fuel h l P R = Some (Normal Undefined, h).
Proof.
  induction 1 as [l o Hl Hp Hproto | l parent o n Hl Hp Hproto HL IH];
    intros fuel R Hlt; (destruct fuel as [|fuel]; [lia|]); simpl;
    rewrite Hl, Hp, Hproto.
  - reflexivity.
  - apply IH. lia.
Qed.

(** A revoked proxy fails every read. *)
Lemma Get_revoked (h : Heap) (P : string) (l : loc) (callable : bool)
    (fuel : nat) (R : Value) :
  h !! l = Some (Proxy (mkProxy None callable)) ->
  Get host_call (S fuel) h l P R = Some (Throw TypeError, h).
Proof. intros Hl. simpl. rewrite Hl. reflexivity. Qed.

(** ** The heap after a lookup *)

Lemma Call_preserves (I : Heap -> Prop) :
  (forall f this args h c h',
      I h -> host_call f this args h = Some (c, h') -> I h') ->
  forall h F V args c h',
    I h -> Call host_call h F V args = Some (c, h') -> I h'.
Proof.
  intros Hhost h F V args c h' HI HC. unfold Call in HC.
  destruct F; simplify_eq; try exact HI.
  destruct (IsCallable h (Object l)); simplify_eq; eauto.
Qed.

(** Whatever the host's calls keep true of the heap, a lookup keeps. *)
Lemma Get_preserves (I : Heap -> Prop) :
  (forall f this args h c h',
      I h -> host_call f this args h = Some (c, h') -> I h') ->
  forall n h O P R c h',
    I h -> Get host_call n h O P R = Some (c, h') -> I h'.
Proof.
  intros Hhost. induction n as [|n IH]; intros h O P R c h' HI HG;
    [discriminate|].
  simpl in HG.
  destruct (h !! O) as [[o|p]|]; [| |simplify_eq; exact HI].
  - destruct (Properties o !! P) as [[v ? ? ?|g ? ? ?]|].
    + simplify_eq. exact HI.
    + destruct g; simplify_eq; try exact HI;
        eapply (Call_preserves I Hhost); eassumption.
    + destruct (Prototype o) as [parent|]; [eauto|simplify_eq; exact HI].
  - destruct (ProxySlots p) as [[target handler]|];
      [|simplify_eq; exact HI].
    destruct (Get host_call n h handler "get" (Object handler))
      as [[[trap|e] h1]|] eqn:Hh; [| |discriminate].
    + assert (HI1 : I h1) by (eapply IH; eassumption).
      assert (Htrap : forall F,
        match Call host_call h1 F (Object handler)
                [Object target; Str P; R] with
        | None => None
        | Some (Throw e, h2) => Some (Throw e, h2)
        | Some (Normal trapResult, h2) =>
            if proxy_get_invariant h2 target P trapResult
            then Some (Normal trapResult, h2)
            else Some (Throw TypeError, h2)
        end = Some (c, h') -> I h').
      { intros F HF.
        destruct (Call host_call h1 F (Object handler)
                    [Object target; Str P; R])
          as [[[res|e] h2]|] eqn:HC; [| |discriminate].
        - assert (I h2) by (eapply (Call_preserves I Hhost); eassumption).
          destruct (proxy_get_invariant h2 target P res); simplify_eq;
            assumption.
        - simplify_eq. eapply (Call_preserves I Hhost); eassumption. }
      destruct trap; eauto.
    + simplify_eq. eapply IH; eassumption.
Qed.

Lemma GetV_preserves (I : Heap -> Prop) :
  (forall f this args h c h',
      I h -> host_call f this args h = Some (c, h') -> I h') ->
  forall n h V P c h',
    I h -> GetV host_call realm n h V P = Some (c, h') -> I h'.
Proof.
  intros Hhost n h V P c h' HI HG.
  destruct V; simpl in HG; simplify_eq; try exact HI;
    eapply (Get_preserves I Hhost); eassumption.
Qed.

(** Two finished runs of one read agree, whatever their fuel. *)
Lemma GetV_deterministic (n m : nat) (h : Heap) (V : Value) (P : string) r r' :
  GetV host_call realm n h V P = Some r ->
  GetV host_call realm m h V P = Some r' ->
  r = r'.
Proof.
  intros Hn Hm.
  pose proof (GetV_mono host_call realm n (n `max` m) h V P r Hn
                ltac:(lia)) as H1.
  pose proof (GetV_mono host_call realm m (n `max` m) h V P r' Hm
                ltac:(lia)) as H2.
  congruence.
Qed.

End Lookup.


(** * The properties of [isThenable] *)

(** C1.  An object or function whose [then] member, own or reached through
    the prototype chain or an interceptor, is read successfully as a
    callable value is classified [true]. *)
Theorem isThenable_callable_then (host_call : HostCall) (realm : Realm)
    (fuel : nat) (v : Value) (st : State) (member : Value) (h' : Heap) :
  v <> Null ->
  typeof (heap st) v = "object" \/ typeof (heap st) v = "function" ->
  GetV host_call realm fuel (heap st) v "then" = Some (Normal member, h') ->
  IsCallable h' member = true ->
  isThenable host_call realm fuel v st =
    Some (Normal true, mkState h' (reads st ++ [(v, "then")])).
Proof.
  intros Hnull Hcat Hread Hcallable.
  destruct (typeof_object_or_function _ _ Hnull Hcat) as [l ->].
  rewrite isThenable_reference, Hread. simpl. rewrite Hcallable. reflexivity.
Qed.

(** The member is inherited: [Object.create({ then: () => {} })]. *)
Lemma isThenable_callable_then_witness :
  isThenable World.host0 World.realm0 2 (Object World.inheriting) World.st0 =
    Some (Normal true, mkState World.heap0 [(Object World.inheriting, "then")]).
Proof.
  apply (isThenable_callable_then World.host0 World.realm0 2
           (Object World.inheriting) World.st0 (Object World.fn) World.heap0).
  - discriminate.
  - left. reflexivity.
  - reflexivity.
  - reflexivity.
Defined.

(** The same with the chain spelled out: a callable data property [n] hops
    up the prototype chain gives [true] with any fuel above [n]. *)
Lemma isThenable_inherited_method (host_call : HostCall) (realm : Realm)
    (st : State) (l : loc) (member : Value) (w e c : bool) (n fuel : nat) :
  Carries (heap st) "then" l (DataProperty member w e c) n ->
  IsCallable (heap st) member = true ->
  n < fuel ->
  isThenable host_call realm fuel (Object l) st =
    Some (Normal true, mkState (heap st) (reads st ++ [(Object l, "then")])).
Proof.
  intros HC Hcallable Hlt. rewrite isThenable_reference. simpl.
  rewrite (Get_carries_data host_call _ _ _ _ _ _ _ _ HC fuel (Object l) Hlt).
  simpl. rewrite Hcallable. reflexivity.
Qed.

(** C2.  No call ends in a throw: an error raised by the read of [then] is
    turned into [false], and the call returns a boolean whenever the read
    finishes. *)
Theorem isThenable_never_throws (host_call : HostCall) (realm : Realm)
    (fuel : nat) (v : Value) (st : State) :
  (forall e st', isThenable host_call realm fuel v st <> Some (Throw e, st'))
  /\ (forall e h',
        GetV host_call realm fuel (heap st) v "then" = Some (Throw e, h') ->
        exists st', isThenable host_call realm fuel v st = Some (Normal false, st'))
  /\ (forall c h',
        GetV host_call realm fuel (heap st) v "then" = Some (c, h') ->
        exists b st', isThenable host_call realm fuel v st = Some (Normal b, st')).
Proof.
  destruct (reference_or_not v) as [[l ->]|Hv].
  - rewrite isThenable_reference.
    destruct (GetV host_call realm fuel (heap st) (Object l) "then")
      as [[c h1]|]; repeat split; intros; simplify_eq; eauto.
  - rewrite isThenable_non_reference by exact Hv.
    repeat split; intros; simplify_eq; eauto.
Qed.

(** A getter that throws, and a revoked proxy. *)
Lemma isThenable_never_throws_witness :
  (exists st', isThenable World.host0 World.realm0 2 (Object World.throwing)
                 World.st0 = Some (Normal false, st'))
  /\ (exists st', isThenable World.host0 World.realm0 2 (Object World.revoked)
                    World.st0 = Some (Normal false, st')).
Proof.
  split.
  - exact (proj1 (proj2 (isThenable_never_throws World.host0 World.realm0 2
                           (Object World.throwing) World.st0))
             (Thrown (Str "oops")) World.heap0 eq_refl).
  - exact (proj1 (proj2 (isThenable_never_throws World.host0 World.realm0 2
                           (Object World.revoked) World.st0))
             TypeError World.heap0 eq_refl).
Defined.

(** C3.  An object or function whose [then] member is read successfully as
    a value that is not callable is classified [false]. *)
Theorem isThenable_non_callable_then (host_call : HostCall) (realm : Realm)
    (fuel : nat) (v : Value) (st : State) (member : Value) (h' : Heap) :
  v <> Null ->
  typeof (heap st) v = "object" \/ typeof (heap st) v = "function" ->
  GetV host_call realm fuel (heap st) v "then" = Some (Normal member, h') ->
  IsCallable h' member = false ->
  isThenable host_call realm fuel v st =
    Some (Normal false, mkState h' (reads st ++ [(v, "then")])).
Proof.
  intros Hnull Hcat Hread Hcallable.
  destruct (typeof_object_or_function _ _ Hnull Hcat) as [l ->].
  rewrite isThenable_reference, Hread. simpl. rewrite Hcallable. reflexivity.
Qed.

(** [{ then: 'not a function' }] *)
Lemma isThenable_non_callable_then_witness :
  isThenable World.host0 World.realm0 1 (Object World.with_string) World.st0 =
    Some (Normal false, mkState World.heap0 [(Object World.with_string, "then")]).
Proof.
  apply (isThenable_non_callable_then World.host0 World.realm0 1
           (Object World.with_string) World.st0 (Str "not a function")
           World.heap0).
  - discriminate.
  - left. reflexivity.
  - reflexivity.
  - reflexivity.
Defined.

(** The kinds of member the specification lists are not callable: strings,
    numbers, [null], [undefined], and objects without [[Call]]. *)
Lemma non_callable_members (h : Heap) (member : Value) :
  match member with
  | Str _ | Number _ | Null | Undefined | Boolean _ | Symbol _ | BigInt _ => True
  | Object l =>
      exists o, h !! l = Some (Ordinary o) /\ Callable o = false
  end ->
  IsCallable h member = false.
Proof.
  destruct member; try reflexivity.
  intros (o & Hl & Hc). simpl. rewrite Hl. exact Hc.
Qed.

(** X5.  A member found nowhere on the chain is read as [undefined]:
    [false]. *)
Lemma isThenable_no_then (host_call : HostCall) (realm : Realm)
    (st : State) (l : loc) (n fuel : nat) :
  Lacks (heap st) "then" l n ->
  n < fuel ->
  isThenable host_call realm fuel (Object l) st =
    Some (Normal false, mkState (heap st) (reads st ++ [(Object l, "then")])).
Proof.
  intros HL Hlt. rewrite isThenable_reference. simpl.
  rewrite (Get_lacks host_call _ _ _ _ HL fuel (Object l) Hlt).
  reflexivity.
Qed.

(** C4.  [null] and [undefined] are classified [false] at once: the state,
    the log of reads included, is as before, and no fuel is needed. *)
Theorem isThenable_null_undefined (host_call : HostCall) (realm : Realm)
    (fuel : nat) (st : State) :
  isThenable host_call realm fuel Null st = Some (Normal false, st)
  /\ isThenable host_call realm fuel Undefined st = Some (Normal false, st).
Proof. split; reflexivity. Qed.

(** C5.  A primitive (number, string, boolean, symbol, bigint) is
    classified [false], and nothing is read: the state, the log of reads
    included, is as before. *)
Theorem isThenable_primitive (host_call : HostCall) (realm : Realm)
    (fuel : nat) (v : Value) (st : State) :
  In (typeof (heap st) v) ["number"; "string"; "boolean"; "symbol"; "bigint"] ->
  isThenable host_call realm fuel v st = Some (Normal false, st).
Proof.
  intros Hcat. apply isThenable_non_reference. intros l ->.
  unfold typeof in Hcat. destruct (IsCallable (heap st) (Object l));
    simpl in Hcat; intuition discriminate.
Qed.

(** NaN, Infinity, -0, 42, and one value of each other category.  Fuel 0
    would fail any read. *)
Lemma isThenable_primitive_witness :
  isThenable World.host0 World.realm0 0 (Number S754_nan) World.st0
    = Some (Normal false, World.st0)
  /\ isThenable World.host0 World.realm0 0 (Number (S754_infinity false)) World.st0
    = Some (Normal false, World.st0)
  /\ isThenable World.host0 World.realm0 0 (Number (S754_zero true)) World.st0
    = Some (Normal false, World.st0)
  /\ isThenable World.host0 World.realm0 0 (Number World.forty_two) World.st0
    = Some (Normal false, World.st0)
  /\ isThenable World.host0 World.realm0 0 (Str "then") World.st0
    = Some (Normal false, World.st0)
  /\ isThenable World.host0 World.realm0 0 (Boolean true) World.st0
    = Some (Normal false, World.st0)
  /\ isThenable World.host0 World.realm0 0 (Symbol 1) World.st0
    = Some (Normal false, World.st0)
  /\ isThenable World.host0 World.realm0 0 (BigInt 42) World.st0
    = Some (Normal false, World.st0).
Proof.
  repeat apply conj;
    apply (isThenable_primitive World.host0 World.realm0 0 _ World.st0);
    simpl; tauto.
Defined.

(** The guard, not the read, rejects a primitive: with a callable [then]
    on [Number.prototype], reading [(42).then] yields a function, and 42 is
    still classified [false]. *)
Lemma isThenable_primitive_with_method :
  (exists member h',
      GetV World.host0 World.realm0 2 World.heap0 (Number World.forty_two) "then"
        = Some (Normal member, h')
      /\ IsCallable h' member = true)
  /\ isThenable World.host0 World.realm0 2 (Number World.forty_two) World.st0
     = Some (Normal false, World.st0).
Proof.
  split; [|reflexivity].
  exists (Object World.fn), World.heap0. split; reflexivity.
Qed.

(** The scenarios of the test suite, one call each from the initial state. *)
Lemma test_suite_scenarios :
  World.verdict 1 (Object World.with_method) World.st0 = Some (Normal true)
  /\ World.verdict 1 (Object World.with_string) World.st0 = Some (Normal false)
  /\ World.verdict 2 (Object World.inheriting) World.st0 = Some (Normal true)
  /\ World.verdict 1 (Object World.throwing) World.st0 = Some (Normal false)
  /\ World.verdict 1 (Object World.revoked) World.st0 = Some (Normal false)
  /\ World.verdict 1 (Object World.alternating) World.st0 = Some (Normal true)
  /\ World.verdict 2 (Object World.proxied) World.st0 = Some (Normal true)
  /\ World.verdict 1 (Object World.target) World.st0 = Some (Normal false)
  /\ World.verdict 1 (Object World.fn) World.st0 = Some (Normal false)
  /\ World.verdict 1 (Object World.boxed) World.st0 = Some (Normal true)
  /\ World.verdict 0 Null World.st0 = Some (Normal false)
  /\ World.verdict 0 Undefined World.st0 = Some (Normal false)
  /\ World.verdict 0 (Number World.forty_two) World.st0 = Some (Normal false).
Proof. repeat apply conj; vm_compute; reflexivity. Qed.

(** C6.  On an object or function a call makes exactly one read of [then]:
    the log grows by that one entry, the state is the one the read left,
    and the result is the classification of what that read observed. *)
Theorem isThenable_single_read (host_call : HostCall) (realm : Realm)
    (fuel : nat) (v : Value) (st : State) (r : Completion bool) (st' : State) :
  v <> Null ->
  typeof (heap st) v = "object" \/ typeof (heap st) v = "function" ->
  isThenable host_call realm fuel v st = Some (r, st') ->
  reads st' = reads st ++ [(v, "then")]
  /\ exists c,
       GetV host_call realm fuel (heap st) v "then" = Some (c, heap st')
       /\ r = Normal (classify (heap st') c).
Proof.
  intros Hnull Hcat Hrun.
  destruct (typeof_object_or_function _ _ Hnull Hcat) as [l ->].
  rewrite isThenable_reference in Hrun.
  destruct (GetV host_call realm fuel (heap st) (Object l) "then")
    as [[c h1]|]; [|discriminate].
  simplify_eq. simpl. split; [reflexivity|]. exists c. split; reflexivity.
Qed.

(** A getter that answers with a function on one read and [null] on the
    next: each call reads once and reports what it saw, [true] then
    [false]. *)
Lemma isThenable_single_read_witness :
  (reads (World.after 1 2 (Object World.alternating) World.st0)
     = [(Object World.alternating, "then")]
   /\ exists c,
        GetV World.host0 World.realm0 2 World.heap0 (Object World.alternating) "then"
          = Some (c, heap (World.after 1 2 (Object World.alternating) World.st0))
        /\ Normal true
           = Normal (classify (heap (World.after 1 2 (Object World.alternating)
                                       World.st0)) c))
  /\ (reads (World.after 2 2 (Object World.alternating) World.st0)
        = [(Object World.alternating, "then"); (Object World.alternating, "then")]
      /\ exists c,
           GetV World.host0 World.realm0 2
             (heap (World.after 1 2 (Object World.alternating) World.st0))
             (Object World.alternating) "then"
             = Some (c, heap (World.after 2 2 (Object World.alternating) World.st0))
           /\ Normal false
              = Normal (classify (heap (World.after 2 2 (Object World.alternating)
                                          World.st0)) c)).
Proof.
  split.
  - apply (isThenable_single_read World.host0 World.realm0 2
             (Object World.alternating) World.st0 (Normal true)
             (World.after 1 2 (Object World.alternating) World.st0)).
    + discriminate.
    + left. reflexivity.
    + vm_compute. reflexivity.
  - apply (isThenable_single_read World.host0 World.realm0 2
             (Object World.alternating)
             (World.after 1 2 (Object World.alternating) World.st0)
             (Normal false)
             (World.after 2 2 (Object World.alternating) World.st0)).
    + discriminate.
    + left. vm_compute. reflexivity.
    + vm_compute. reflexivity.
Defined.

(** C7.  A second call on a value nothing has changed gives the first
    call's answer: it returns it with the same fuel, and can return nothing
    else with any other. *)
Theorem isThenable_idempotent (host_call : HostCall) (realm : Realm)
    (fuel : nat) (v : Value) (st : State) (b : bool) (st1 : State) :
  isThenable host_call realm fuel v st = Some (Normal b, st1) ->
  heap st1 = heap st ->
  (exists st2,
      isThenable host_call realm fuel v st1 = Some (Normal b, st2)
      /\ heap st2 = heap st1)
  /\ (forall fuel' r st2,
        isThenable host_call realm fuel' v st1 = Some (r, st2) ->
        r = Normal b).
Proof.
  intros Hrun Hsame.
  destruct (reference_or_not v) as [[l ->]|Hv].
  - rewrite isThenable_reference in Hrun.
    destruct (GetV host_call realm fuel (heap st) (Object l) "then")
      as [[c h1]|] eqn:Hread; [|discriminate].
    injection Hrun as Hb Hst. subst st1 b. simpl in Hsame. subst h1. split.
    + rewrite isThenable_reference. cbn [heap reads]. rewrite Hread.
      eexists. split; reflexivity.
    + intros fuel' r st2 Hrun2.
      rewrite isThenable_reference in Hrun2. cbn [heap reads] in Hrun2.
      destruct (GetV host_call realm fuel' (heap st) (Object l) "then")
        as [[c' h2]|] eqn:Hread2; [|discriminate].
      pose proof (GetV_deterministic _ _ _ _ _ _ _ _ _ Hread Hread2) as Heq.
      injection Heq as <- <-. injection Hrun2 as <- _. reflexivity.
  - rewrite isThenable_non_reference in Hrun by exact Hv. simplify_eq.
    split.
    + exists st1. rewrite isThenable_non_reference by exact Hv. auto.
    + intros fuel' r st2 Hrun2.
      rewrite isThenable_non_reference in Hrun2 by exact Hv. congruence.
Qed.

(** [{ then: () => {} }], checked twice. *)
Lemma isThenable_idempotent_witness :
  (exists st2,
      isThenable World.host0 World.realm0 1 (Object World.with_method)
        (World.after 1 1 (Object World.with_method) World.st0)
        = Some (Normal true, st2)
      /\ heap st2 = heap (World.after 1 1 (Object World.with_method) World.st0))
  /\ (forall fuel' r st2,
        isThenable World.host0 World.realm0 fuel' (Object World.with_method)
          (World.after 1 1 (Object World.with_method) World.st0) = Some (r, st2) ->
        r = Normal true).
Proof.
  apply (isThenable_idempotent World.host0 World.realm0 1
           (Object World.with_method) World.st0 true
           (World.after 1 1 (Object World.with_method) World.st0)).
  - vm_compute. reflexivity.
  - vm_compute. reflexivity.
Defined.

(** More generally the heap may differ between the calls: two calls whose
    reads observe the same thing answer alike. *)
Lemma isThenable_same_observation (host_call : HostCall) (realm : Realm)
    (fuel fuel' : nat) (l : loc) (st st1 : State) (c c' : Completion Value)
    (h h' : Heap) :
  GetV host_call realm fuel (heap st) (Object l) "then" = Some (c, h) ->
  GetV host_call realm fuel' (heap st1) (Object l) "then" = Some (c', h') ->
  classify h c = classify h' c' ->
  fst <$> isThenable host_call realm fuel (Object l) st
  = fst <$> isThenable host_call realm fuel' (Object l) st1.
Proof.
  intros Hread Hread' Hsame.
  rewrite !isThenable_reference, Hread, Hread'. simpl. rewrite Hsame.
  reflexivity.
Qed.

(** What the hypothesis of C7 excludes: the alternating getter changes the
    heap, and the second call answers differently. *)
Lemma isThenable_alternating_twice :
  World.verdict 2 (Object World.alternating) World.st0 = Some (Normal true)
  /\ World.verdict 2 (Object World.alternating)
       (World.after 1 2 (Object World.alternating) World.st0)
     = Some (Normal false)
  /\ heap (World.after 1 2 (Object World.alternating) World.st0) <> World.heap0.
Proof.
  split; [vm_compute; reflexivity|]. split; [vm_compute; reflexivity|].
  intros Heq.
  assert (Hl : heap (World.after 1 2 (Object World.alternating) World.st0)
                 !! World.scope = World.heap0 !! World.scope)
    by (rewrite Heq; reflexivity).
  vm_compute in Hl. discriminate Hl.
Qed.

(** C8, as the code has it.  The function writes nothing of its own and
    keeps nothing: either no read was made and the state is the one before
    the call, or the state is exactly the one the single read of [then]
    left; so whatever the functions run by that read keep true of the heap
    is still true after the call. *)
Theorem isThenable_frame (host_call : HostCall) (realm : Realm)
    (fuel : nat) (v : Value) (st : State) (r : Completion bool) (st' : State) :
  isThenable host_call realm fuel v st = Some (r, st') ->
  (st' = st
   \/ exists c,
        GetV host_call realm fuel (heap st) v "then" = Some (c, heap st')
        /\ reads st' = reads st ++ [(v, "then")])
  /\ (forall I : Heap -> Prop,
        (forall f this args h c h',
            I h -> host_call f this args h = Some (c, h') -> I h') ->
        I (heap st) -> I (heap st')).
Proof.
  intros Hrun.
  destruct (reference_or_not v) as [[l ->]|Hv].
  - rewrite isThenable_reference in Hrun.
    destruct (GetV host_call realm fuel (heap st) (Object l) "then")
      as [[c h1]|] eqn:Hread; [|discriminate].
    injection Hrun as _ <-. cbn [heap reads]. split.
    + right. exists c. split; reflexivity.
    + intros I Hhost HI.
      eapply (GetV_preserves host_call realm I Hhost); eassumption.
  - rewrite isThenable_non_reference in Hrun by exact Hv.
    injection Hrun as _ <-. split; [left; reflexivity | auto].
Qed.

(** With functions that change nothing, the heap after checking
    [Object.create({ then: () => {} })] is the heap before. *)
Lemma isThenable_frame_witness :
  heap (mkState World.heap0 [(Object World.inheriting, "then")]) = World.heap0.
Proof.
  refine (proj2 (isThenable_frame World.idle_host World.realm0 2
                   (Object World.inheriting) World.st0 (Normal true)
                   (mkState World.heap0 [(Object World.inheriting, "then")])
                   _)
            (fun h => h = World.heap0) _ _).
  - vm_compute. reflexivity.
  - intros f this args h c h' Hh Hcall. unfold World.idle_host in Hcall.
    congruence.
  - reflexivity.
Defined.

(** C8, as stated, fails where the read runs a getter that writes to the
    candidate: after checking [{ get then() { this.touched = true } }] the
    candidate has a property it did not have. *)
Lemma isThenable_runs_getter_effects :
  exists st',
    isThenable World.host0 World.realm0 1 (Object World.touching) World.st0
      = Some (Normal false, st')
    /\ (exists o, heap World.st0 !! World.touching = Some (Ordinary o)
                  /\ Properties o !! "touched" = None)
    /\ (exists o', heap st' !! World.touching = Some (Ordinary o')
                   /\ Properties o' !! "touched"
                      = Some (World.data (Boolean true))).
Proof.
  eexists. split; [vm_compute; reflexivity|]. split.
  - eexists. split; [vm_compute; reflexivity|]. vm_compute. reflexivity.
  - eexists. split; [vm_compute; reflexivity|]. vm_compute. reflexivity.
Qed.

(** C9.  A wrapper object around a primitive has [typeof] "object", so it
    passes both guards and is classified by its [then] member alone: when
    that member is read as a callable value the answer is [true], while the
    primitive it boxes is answered [false]. *)
Theorem isThenable_boxed_primitive (host_call : HostCall) (realm : Realm)
    (fuel : nat) (l : loc) (o : OrdinaryObject) (prim : Value) (st : State) :
  heap st !! l = Some (Ordinary o) ->
  PrimitiveData o = Some prim ->
  Callable o = false ->
  In (typeof (heap st) prim) ["number"; "string"; "boolean"; "symbol"; "bigint"] ->
  typeof (heap st) (Object l) = "object"
  /\ (forall member h',
        GetV host_call realm fuel (heap st) (Object l) "then"
          = Some (Normal member, h') ->
        isThenable host_call realm fuel (Object l) st
          = Some (Normal (IsCallable h' member),
                  mkState h' (reads st ++ [(Object l, "then")])))
  /\ isThenable host_call realm fuel prim st = Some (Normal false, st).
Proof.
  intros Hl Hdata Hcall Hprim. split; [|split].
  - simpl. rewrite Hl, Hcall. reflexivity.
  - intros member h' Hread. rewrite isThenable_reference, Hread. reflexivity.
  - apply isThenable_non_reference. intros l' ->.
    unfold typeof in Hprim. destruct (IsCallable (heap st) (Object l'));
      simpl in Hprim; intuition discriminate.
Qed.

(** [new Number(42)] with a [then] method is thenable; 42 is not. *)
Lemma isThenable_boxed_primitive_witness :
  typeof World.heap0 (Object World.boxed) = "object"
  /\ isThenable World.host0 World.realm0 1 (Object World.boxed) World.st0
     = Some (Normal true, mkState World.heap0 [(Object World.boxed, "then")])
  /\ isThenable World.host0 World.realm0 1 (Number World.forty_two) World.st0
     = Some (Normal false, World.st0).
Proof.
  destruct (isThenable_boxed_primitive World.host0 World.realm0 1 World.boxed
              (mkOrdinary (Some World.number_prototype)
                 {[ "then" := World.data (Object World.fn) ]} false
                 (Some (Number World.forty_two)))
              (Number World.forty_two) World.st0)
    as (Htypeof & Hbox & Hprim).
  - reflexivity.
  - reflexivity.
  - reflexivity.
  - simpl. tauto.
  - split; [exact Htypeof|]. split; [|exact Hprim].
    exact (Hbox (Object World.fn) World.heap0 eq_refl).
Defined.

(** C10.  The default export is the named export: one function, hence the
    same result on every input. *)
Theorem default_export_is_isThenable :
  Exports.default = Exports.isThenable
  /\ forall (host_call : HostCall) (realm : Realm) (fuel : nat) (v : Value)
       (st : State),
       Exports.default host_call realm fuel v st
       = Exports.isThenable host_call realm fuel v st.
Proof. split; reflexivity. Qed.

(** * Further properties *)

(** ** When the answer is [true] *)

(** X1.  [true] is answered only for an object or function whose [then] was
    read, once, as a callable value; and always then. *)
Theorem isThenable_true_iff (host_call : HostCall) (realm : Realm)
    (fuel : nat) (v : Value) (st st' : State) :
  isThenable host_call realm fuel v st = Some (Normal true, st')
  <-> exists l member,
        v = Object l
        /\ GetV host_call realm fuel (heap st) v "then"
           = Some (Normal member, heap st')
        /\ IsCallable (heap st') member = true
        /\ reads st' = reads st ++ [(v, "then")].
Proof.
  split.
  - intros Hrun. destruct (reference_or_not v) as [[l ->]|Hv].
    + rewrite isThenable_reference in Hrun.
      destruct (GetV host_call realm fuel (heap st) (Object l) "then")
        as [[[member|e] h1]|]; try discriminate.
      injection Hrun as Hcallable <-. cbn [heap reads].
      exists l, member. auto.
    + rewrite isThenable_non_reference in Hrun by exact Hv. discriminate.
  - intros (l & member & -> & Hread & Hcallable & Hreads).
    rewrite isThenable_reference, Hread. cbn [classify].
    rewrite Hcallable, <- Hreads. destruct st'; reflexivity.
Qed.

(** X2.  After [true] on a heap the check left as it was, reading [then] again
    gives a value with [typeof] "function": the narrowing the callers rely
    on. *)
Theorem isThenable_narrows (host_call : HostCall) (realm : Realm)
    (fuel : nat) (v : Value) (st st' : State) :
  isThenable host_call realm fuel v st = Some (Normal true, st') ->
  heap st' = heap st ->
  exists member,
    GetV host_call realm fuel (heap st') v "then" = Some (Normal member, heap st')
    /\ typeof (heap st') member = "function".
Proof.
  intros Hrun Hsame.
  destruct (reference_or_not v) as [[l ->]|Hv];
    [|rewrite isThenable_non_reference in Hrun by exact Hv; discriminate].
  rewrite isThenable_reference in Hrun.
  destruct (GetV host_call realm fuel (heap st) (Object l) "then")
    as [[[member|e] h1]|] eqn:Hread; try discriminate.
  injection Hrun as Hcallable <-. cbn [heap] in Hsame |- *. subst h1.
  exists member. split; [exact Hread|].
  destruct member; try discriminate. unfold typeof. rewrite Hcallable.
  reflexivity.
Qed.

Lemma isThenable_narrows_witness :
  exists member,
    GetV World.host0 World.realm0 2 World.heap0 (Object World.inheriting) "then"
      = Some (Normal member, World.heap0)
    /\ typeof World.heap0 member = "function".
Proof.
  apply (isThenable_narrows World.host0 World.realm0 2 (Object World.inheriting)
           World.st0 (mkState World.heap0 [(Object World.inheriting, "then")])).
  - vm_compute. reflexivity.
  - reflexivity.
Defined.

(** ** Data properties *)

(** X3.  A [then] data property, own or inherited, decides the answer by its
    value alone: the attributes (writable, enumerable, configurable) play
    no part, and the heap is left as it was. *)
Theorem isThenable_data_property (host_call : HostCall) (realm : Realm)
    (st : State) (l : loc) (member : Value) (w e c : bool) (n fuel : nat) :
  Carries (heap st) "then" l (DataProperty member w e c) n ->
  n < fuel ->
  isThenable host_call realm fuel (Object l) st =
    Some (Normal (IsCallable (heap st) member),
          mkState (heap st) (reads st ++ [(Object l, "then")])).
Proof.
  intros HC Hlt. rewrite isThenable_reference. simpl.
  rewrite (Get_carries_data host_call _ _ _ _ _ _ _ _ HC fuel (Object l) Hlt).
  reflexivity.
Qed.

Lemma isThenable_data_property_witness :
  isThenable World.host0 World.realm0 2 (Object World.inheriting) World.st0 =
    Some (Normal (IsCallable World.heap0 (Object World.fn)),
          mkState World.heap0 [(Object World.inheriting, "then")]).
Proof.
  apply (isThenable_data_property World.host0 World.realm0 World.st0
           World.inheriting (Object World.fn) true true true 1 2).
  - eapply Carries_inherited.
    + reflexivity.
    + reflexivity.
    + reflexivity.
    + eapply Carries_own; reflexivity.
  - lia.
Defined.

(** X4.  With [then] a data property no function is run, [then] least of all:
    the outcome is the same whatever the functions of the host do. *)
Theorem isThenable_runs_no_function (host_call host_call' : HostCall)
    (realm realm' : Realm) (st : State) (l : loc) (member : Value)
    (w e c : bool) (n fuel : nat) :
  Carries (heap st) "then" l (DataProperty member w e c) n ->
  n < fuel ->
  isThenable host_call realm fuel (Object l) st
  = isThenable host_call' realm' fuel (Object l) st.
Proof.
  intros HC Hlt. rewrite !isThenable_reference. simpl.
  rewrite (Get_carries_data host_call _ _ _ _ _ _ _ _ HC fuel (Object l) Hlt).
  rewrite (Get_carries_data host_call' _ _ _ _ _ _ _ _ HC fuel (Object l) Hlt).
  reflexivity.
Qed.

(** A host on which every call hangs: the check of [{ then: () => {} }]
    returns all the same. *)
Lemma isThenable_runs_no_function_witness :
  isThenable World.host0 World.realm0 1 (Object World.with_method) World.st0
  = isThenable (fun _ _ _ _ => None) World.realm0 1 (Object World.with_method)
      World.st0.
Proof.
  apply (isThenable_runs_no_function World.host0 (fun _ _ _ _ => None)
           World.realm0 World.realm0 World.st0 World.with_method
           (Object World.fn) true true true 0 1).
  - eapply Carries_own; reflexivity.
  - lia.
Defined.

Lemma isThenable_no_then_witness :
  isThenable World.host0 World.realm0 1 (Object World.target) World.st0 =
    Some (Normal false, mkState World.heap0 [(Object World.target, "then")]).
Proof.
  apply (isThenable_no_then World.host0 World.realm0 World.st0 World.target 0 1).
  - eapply Lacks_end; reflexivity.
  - lia.
Defined.

(** ** Accessor properties *)

Lemma Get_carries_no_getter (host_call : HostCall) (h : Heap) (P : string)
    (l : loc) (setter : Value) (e c : bool) (n : nat) :
  Carries h P l (AccessorProperty Undefined setter e c) n ->
  forall fuel R, n < fuel ->
    Get host_call fuel h l P R = Some (Normal Undefined, h).
Proof.
  intros HC.
  remember (AccessorProperty Undefined setter e c) as d eqn:Hd.
  induction HC as [l o d Hl Hp | l parent o d n Hl Hp Hproto HC IH];
    intros fuel R Hlt; (destruct fuel as [|fuel]; [lia|]); simpl;
    rewrite Hl, Hp.
  - subst d. reflexivity.
  - rewrite Hproto. apply IH; [exact Hd | lia].
Qed.

(** X6.  A [then] getter, own or inherited, is called once, with the candidate
    itself as [this] and no arguments; the answer is the classification of
    how that call completed, and a throw of any value means [false].  The
    heap is the one the getter left, also when it threw. *)
Theorem isThenable_getter (host_call : HostCall) (realm : Realm)
    (st : State) (l g : loc) (setter : Value) (e c : bool) (n fuel : nat)
    (outcome : Completion Value) (h' : Heap) :
  Carries (heap st) "then" l (AccessorProperty (Object g) setter e c) n ->
  IsCallable (heap st) (Object g) = true ->
  host_call g (Object l) [] (heap st) = Some (outcome, h') ->
  n < fuel ->
  isThenable host_call realm fuel (Object l) st =
    Some (Normal (classify h' outcome),
          mkState h' (reads st ++ [(Object l, "then")])).
Proof.
  intros HC Hcallable Hcall Hlt. rewrite isThenable_reference. simpl.
  rewrite (Get_carries_accessor host_call _ _ _ _ _ _ _ _ HC fuel (Object l) Hlt).
  unfold Call. rewrite Hcallable, Hcall. reflexivity.
Qed.

(** The getter that throws ['oops']. *)
Lemma isThenable_getter_witness :
  isThenable World.host0 World.realm0 1 (Object World.throwing) World.st0 =
    Some (Normal (classify World.heap0 (Throw (Thrown (Str "oops")))),
          mkState World.heap0 [(Object World.throwing, "then")]).
Proof.
  apply (isThenable_getter World.host0 World.realm0 World.st0 World.throwing
           World.throwing_getter Undefined false false 0 1
           (Throw (Thrown (Str "oops"))) World.heap0).
  - eapply Carries_own; reflexivity.
  - reflexivity.
  - reflexivity.
  - lia.
Defined.

(** X7.  An accessor [then] with a setter and no getter is there, yet reads as
    [undefined]: the answer is [false]. *)
Theorem isThenable_setter_only (host_call : HostCall) (realm : Realm)
    (st : State) (l : loc) (setter : Value) (e c : bool) (n fuel : nat) :
  Carries (heap st) "then" l (AccessorProperty Undefined setter e c) n ->
  n < fuel ->
  isThenable host_call realm fuel (Object l) st =
    Some (Normal false, mkState (heap st) (reads st ++ [(Object l, "then")])).
Proof.
  intros HC Hlt. rewrite isThenable_reference. simpl.
  rewrite (Get_carries_no_getter host_call _ _ _ _ _ _ _ HC fuel (Object l) Hlt).
  reflexivity.
Qed.

(** [{ set then(v) {} }] *)
Lemma isThenable_setter_only_witness :
  isThenable World.host0 World.realm0 1 (Object Scenes.setter_only) Scenes.st1 =
    Some (Normal false,
          mkState Scenes.heap1 [(Object Scenes.setter_only, "then")]).
Proof.
  apply (isThenable_setter_only World.host0 World.realm0 Scenes.st1
           Scenes.setter_only (Object Scenes.setter) true true 0 1).
  - eapply Carries_own; reflexivity.
  - lia.
Defined.

(** ** Proxies *)

(** X8.  A revoked proxy, callable or not, whatever its target and handler
    were, is answered [false]; the heap is left as it was. *)
Theorem isThenable_revoked_proxy (host_call : HostCall) (realm : Realm)
    (st : State) (l : loc) (callable : bool) (fuel : nat) :
  heap st !! l = Some (Proxy (mkProxy None callable)) ->
  0 < fuel ->
  isThenable host_call realm fuel (Object l) st =
    Some (Normal false, mkState (heap st) (reads st ++ [(Object l, "then")])).
Proof.
  intros Hl Hlt. destruct fuel as [|fuel]; [lia|].
  rewrite isThenable_reference.
  unfold GetV. rewrite (Get_revoked host_call _ _ _ _ _ _ Hl). reflexivity.
Qed.

Lemma isThenable_revoked_proxy_witness :
  isThenable World.host0 World.realm0 1 (Object World.revoked) World.st0 =
    Some (Normal false, mkState World.heap0 [(Object World.revoked, "then")]).
Proof.
  apply (isThenable_revoked_proxy World.host0 World.realm0 World.st0
           World.revoked false 1).
  - reflexivity.
  - lia.
Defined.



(** X10.  A proxy whose handler has no [get] trap is transparent: with [then] a
    data property of the target, own or inherited, the proxy is answered
    as the target. *)
Theorem isThenable_proxy_forwards (host_call : HostCall) (realm : Realm)
    (st : State) (l target handler : loc) (callable w e c : bool)
    (n m fuel : nat) (member : Value) :
  heap st !! l = Some (Proxy (mkProxy (Some (target, handler)) callable)) ->
  Lacks (heap st) "get" handler n ->
  Carries (heap st) "then" target (DataProperty member w e c) m ->
  S n < fuel ->
  S m < fuel ->
  isThenable host_call realm fuel (Object l) st
  = Some (Normal (IsCallable (heap st) member),
          mkState (heap st) (reads st ++ [(Object l, "then")]))
  /\ fst <$> isThenable host_call realm fuel (Object l) st
     = fst <$> isThenable host_call realm fuel (Object target) st.
Proof.
  intros Hl HL HC Hn Hm.
  destruct fuel as [|fuel]; [lia|].
  rewrite !isThenable_reference. simpl. rewrite Hl. simpl.
  rewrite (Get_lacks host_call _ _ _ _ HL fuel (Object handler)) by lia.
  rewrite (Get_carries_data host_call _ _ _ _ _ _ _ _ HC fuel (Object l))
    by lia.
  pose proof (Get_carries_data host_call _ _ _ _ _ _ _ _ HC (S fuel)
                (Object target) ltac:(lia)) as Htarget.
  simpl in Htarget. rewrite Htarget. split; reflexivity.
Qed.

(** [new Proxy({ then: () => {} }, {})] *)
Lemma isThenable_proxy_forwards_witness :
  isThenable World.host0 World.realm0 2 (Object Scenes.transparent) Scenes.st1
  = Some (Normal (IsCallable Scenes.heap1 (Object World.fn)),
          mkState Scenes.heap1 [(Object Scenes.transparent, "then")])
  /\ fst <$> isThenable World.host0 World.realm0 2 (Object Scenes.transparent)
               Scenes.st1
     = fst <$> isThenable World.host0 World.realm0 2 (Object World.with_method)
                 Scenes.st1.
Proof.
  apply (isThenable_proxy_forwards World.host0 World.realm0 Scenes.st1
           Scenes.transparent World.with_method Scenes.empty_handler
           false true true true 0 0 2 (Object World.fn)).
  - reflexivity.
  - eapply Lacks_end; reflexivity.
  - eapply Carries_own; reflexivity.
  - lia.
  - lia.
Defined.

(** ** The validation helper *)

Lemma isThenable_returns_boolean (host_call : HostCall) (realm : Realm)
    (fuel : nat) (v : Value) (st : State) (r : Completion bool) (st' : State) :
  isThenable host_call realm fuel v st = Some (r, st') ->
  exists b, r = Normal b.
Proof.
  intros Hrun. destruct (reference_or_not v) as [[l ->]|Hv].
  - rewrite isThenable_reference in Hrun.
    destruct (GetV host_call realm fuel (heap st) (Object l) "then")
      as [[c h1]|]; [|discriminate].
    injection Hrun as <- _. eauto.
  - rewrite isThenable_non_reference in Hrun by exact Hv.
    injection Hrun as <- _. eauto.
Qed.

(** X11.  [validatePromiseLike] returns exactly when the check says [true], in
    the state the check left.  It throws exactly when the check says
    [false], and then what it throws is the TypeError instance it has just
    made, stored at a location that was free: an error raised by a [then]
    getter or a revoked proxy never comes out of it. *)
Theorem validatePromiseLike_outcome (host_call : HostCall) (realm : Realm)
    (TypeErrorPrototype : loc) (fuel : nat) (v : Value) (st : State) :
  (forall st',
      validatePromiseLike host_call realm TypeErrorPrototype fuel v st
        = Some (Normal tt, st')
      <-> isThenable host_call realm fuel v st = Some (Normal true, st'))
  /\ (forall st',
        isThenable host_call realm fuel v st = Some (Normal false, st') ->
        exists l st'',
          validatePromiseLike host_call realm TypeErrorPrototype fuel v st
            = Some (Throw (Thrown (Object l)), st''))
  /\ (forall e st'',
        validatePromiseLike host_call realm TypeErrorPrototype fuel v st
          = Some (Throw e, st'') ->
        exists st' l,
          isThenable host_call realm fuel v st = Some (Normal false, st')
          /\ e = Thrown (Object l)
          /\ heap st' !! l = None
          /\ st'' = mkState
                      (<[ l := TypeError_instance TypeErrorPrototype
                                 "Expected a thenable" ]> (heap st'))
                      (reads st')).
Proof.
  unfold validatePromiseLike, bind.
  destruct (isThenable host_call realm fuel v st) as [[r st1]|] eqn:Hrun.
  - destruct (isThenable_returns_boolean _ _ _ _ _ _ _ Hrun) as [b ->].
    destruct b; simpl; unfold ret, throw, new_TypeError.
    + split; [|split].
      * intros st'. split; intros H; injection H as <-; reflexivity.
      * intros st' H. discriminate.
      * intros e st'' H. discriminate.
    + split; [|split].
      * intros st'. split; discriminate.
      * intros st' _. eauto.
      * intros e st'' H. injection H as <- <-.
        exists st1, (fresh (dom (heap st1))).
        repeat apply conj; try reflexivity.
        apply not_elem_of_dom, is_fresh.
  - split; [|split].
    + intros st'. split; discriminate.
    + intros st' H. discriminate.
    + intros e st'' H. discriminate.
Qed.

(** On the object whose getter throws ['oops'], what comes out is the new
    TypeError instance. *)
Lemma validatePromiseLike_outcome_witness :
  exists l st'',
    validatePromiseLike World.host0 World.realm0 Scenes.type_error_prototype 1
      (Object World.throwing) Scenes.st1
    = Some (Throw (Thrown (Object l)), st'').
Proof.
  apply (proj1 (proj2 (validatePromiseLike_outcome World.host0 World.realm0
                         Scenes.type_error_prototype 1 (Object World.throwing)
                         Scenes.st1))
           (mkState Scenes.heap1 [(Object World.throwing, "then")])).
  vm_compute. reflexivity.
Defined.
